(** * capstone.py: waveform loading, zooming and pitch shifting

    The script [src/paul_python/capstone.py] is a straight line of calls:
    it globs one path, takes the first match, decodes it with
    [librosa.load] at a requested rate, zooms into the samples with the
    slice [y[0:200000]], and pitch-shifts the samples with
    [librosa.effects.pitch_shift].  This development embeds those steps
    and states the specification's properties of load / slice / pitchShift
    over them.  Printing, plotting, the audio widgets and the second
    decoding of the file through pydub (line 53) are left out. *)

From stdpp Require Import base gmap strings list.
From Stdlib Require Import ZArith QArith Lia Ascii.

Local Open Scope Z_scope.

(** ** Exceptions and results

    A statement of the script either yields a value or raises.  The
    script has no [try]/[except], so an exception ends the run. *)

Inductive Error : Type :=
| IndexError        (* Python: list index out of range *)
| NotFoundError     (* spec taxonomy: missing input file *)
| DecodeError       (* spec taxonomy: unsupported or corrupt audio *)
| RangeError        (* spec taxonomy: invalid slice bounds *)
| ProcessingError.  (* spec taxonomy: transform failure *)

Inductive Result (A : Type) : Type :=
| Ok (a : A)
| Raise (e : Error).
Arguments Ok {A} a.
Arguments Raise {A} e.

Definition bind {A B : Type} (r : Result A) (k : A -> Result B) : Result B :=
  match r with
  | Ok a => k a
  | Raise e => Raise e
  end.

Notation "x <- r ;; k" := (bind r (fun x => k))
  (at level 100, r at next level, right associativity, only parsing).

(** ** Python sequence operations used by the script *)

Module Py.

(** [xs[i]] on a list, as in [audio_files[0]]: a negative index counts
    from the end, an index outside the list raises [IndexError]. *)
Definition getitem {A : Type} (xs : list A) (i : Z) : Result A :=
  let n := Z.of_nat (length xs) in
  let k := if i <? 0 then i + n else i in
  if (k <? 0) || (n <=? k) then Raise IndexError
  else match xs !! Z.to_nat k with
       | Some x => Ok x
       | None => Raise IndexError
       end.

(** One bound of a slice with step 1 against a sequence of [n]
    elements: a negative bound counts from the end and is clamped at 0,
    a bound past the end is clamped at [n]. *)
Definition adjust_index (n i : Z) : Z :=
  if i <? 0 then (if i + n <? 0 then 0 else i + n)
  else if n <=? i then n else i.

(** Number of elements selected by adjusted bounds. *)
Definition slice_length (start stop : Z) : Z :=
  if start <? stop then stop - start else 0.

(** [xs[i:j]], as in [y[0:200000]] and [y[:15]].  It never raises. *)
Definition getslice {A : Type} (xs : list A) (i j : Z) : list A :=
  let n := Z.of_nat (length xs) in
  let start := adjust_index n i in
  let stop := adjust_index n j in
  take (Z.to_nat (slice_length start stop)) (drop (Z.to_nat start) xs).

(** [glob.has_magic]: a pathname is a pattern when it holds one of the
    characters [*], [?] or [[]. *)
Fixpoint has_magic (s : string) : bool :=
  match s with
  | EmptyString => false
  | String c s' =>
      Ascii.eqb c "*"%char || Ascii.eqb c "?"%char || Ascii.eqb c "["%char
      || has_magic s'
  end.

(** The separator of [posixpath]. *)
Definition is_sep (c : ascii) : bool := Ascii.eqb c "/"%char.

(** [(p[:i], p[i:])] for [i = p.rfind('/') + 1]: the part up to and with
    the last slash, and the part after it. *)
Fixpoint rpartition (p : string) : string * string :=
  match p with
  | EmptyString => (EmptyString, EmptyString)
  | String c p' =>
      match rpartition p' with
      | (EmptyString, tail) =>
          if is_sep c then (String c EmptyString, tail)
          else (EmptyString, String c tail)
      | (head, tail) => (String c head, tail)
      end
  end.

(** [s == '/' * len(s)]. *)
Fixpoint all_sep (s : string) : bool :=
  match s with
  | EmptyString => true
  | String c s' => is_sep c && all_sep s'
  end.

(** [s.rstrip('/')]. *)
Fixpoint rstrip_sep (s : string) : string :=
  match s with
  | EmptyString => EmptyString
  | String c s' =>
      if is_sep c && all_sep s' then EmptyString else String c (rstrip_sep s')
  end.

(** [posixpath.split]: the head loses its trailing slashes unless it is
    made of slashes only. *)
Definition split (p : string) : string * string :=
  let (head, tail) := rpartition p in
  (match head with
   | EmptyString => head
   | String _ _ => if all_sep head then head else rstrip_sep head
   end,
   tail).

End Py.

(** ** The file system

    What the operating system answers when it is asked about a pathname:
    a readable regular file, a directory (both reached directly or
    through links), or a symbolic link whose target does not exist.  The
    map holds the pathnames without a trailing slash and the root as
    [/]; [entry_at] answers for every pathname. *)

Inductive Entry : Type :=
| RegularFile (bytes : list Byte.byte)
| Directory
| DanglingLink.

(** A pathname that ends in a slash names a directory or nothing, one
    made of slashes only names the root; the empty pathname names
    nothing. *)
Definition entry_at (fs : gmap string Entry) (p : string) : option Entry :=
  match p with
  | EmptyString => None
  | String _ _ =>
      match Py.split p with
      | (dirname, EmptyString) =>
          match fs !! (if Py.all_sep dirname then "/" else dirname) with
          | Some Directory => Some Directory
          | _ => None
          end
      | (_, String _ _) => fs !! p
      end
  end.

(** [os.path.lexists]: true for dangling links too. *)
Definition lexists (fs : gmap string Entry) (p : string) : bool :=
  match entry_at fs p with
  | Some _ => true
  | None => false
  end.

(** [os.path.isdir]. *)
Definition isdir (fs : gmap string Entry) (p : string) : bool :=
  match entry_at fs p with
  | Some Directory => true
  | _ => false
  end.

(** ** Stand-ins for the external libraries

    Concrete collaborators over integer samples, used to run the
    definitions below on explicit inputs: a decoder that accepts files
    starting with the byte [x01] and reads one channel from the rest, a
    resampler that keeps every sample, a down-mix that keeps the first
    channel, and a DSP kernel that negates every sample. *)

Definition toy_decode (bytes : list Byte.byte) : option (list (list Z) * Z) :=
  match bytes with
  | Byte.x01 :: rest => Some ([map (fun c => Z.of_N (Byte.to_N c)) rest], 8000)
  | _ => None
  end.

Definition toy_resample (xs : list Z) (orig_sr target_sr : Z) : list Z := xs.

Definition toy_to_mono (channels : list (list Z)) : list Z :=
  match channels with
  | [] => []
  | c :: _ => c
  end.

Definition toy_dsp (xs : list Z) (rate : Z) (n_steps : Q) : option (list Z) :=
  Some (map Z.opp xs).

Definition toy_glob_magic (fs : gmap string Entry) (pattern : string)
  : list string := [].

(** ** The script *)

Section Script.

(** Amplitude values; the script never computes with them itself. *)
Variable sample : Type.

(** The decoded audio is kept in two variables, the sample array [y] and
    the rate [sr]; an [AudioBuffer] is that pair. *)
Record AudioBuffer : Type := mkBuffer {
  samples : list sample;
  sample_rate : Z
}.

Definition len (b : AudioBuffer) : Z := Z.of_nat (length (samples b)).

(** *** Zooming (line 42)

    [y[i:j]] is plotted against the same [sr].  The expression is a plain
    slice; nothing checks the bounds. *)
Definition slice (b : AudioBuffer) (i j : Z) : Result AudioBuffer :=
  Ok {| samples := Py.getslice (samples b) i j;
        sample_rate := sample_rate b |}.

(** *** Loading (lines 19 to 28) *)

(** The matches of a pattern with wildcard characters. *)
Variable glob_magic : gmap string Entry -> string -> list string.

(** [glob(pathname)]: a pathname without wildcard characters is returned
    alone, when it has a last component and exists, links that dangle
    included, or when it ends in a slash and the part before is a
    directory; otherwise nothing is returned.  The expansion of a
    pattern is left to [glob_magic]. *)
Definition glob (fs : gmap string Entry) (pathname : string) : list string :=
  if Py.has_magic pathname then glob_magic fs pathname
  else match Py.split pathname with
       | (_, String _ _) => if lexists fs pathname then [pathname] else []
       | (dirname, EmptyString) => if isdir fs dirname then [pathname] else []
       end.

(** The decoder collaborator: channels and native rate of a recognised
    file, a resampler, and a down-mix to one channel. *)
Variable decode : list Byte.byte -> option (list (list sample) * Z).
Variable resample : list sample -> Z -> Z -> list sample.
Variable to_mono : list (list sample) -> list sample.

(** Modelled from the spec: [librosa.load] is an external library call
    whose code is not part of the repository.  Following section 4.1 and
    section 6 of the specification it decodes the file, resamples to the
    target rate, collapses to mono and returns the samples with the
    target rate; it fails with [NotFoundError] when no file exists at the
    path and with [DecodeError] when the file is not parseable audio. *)
Definition librosa_load (fs : gmap string Entry) (path : string)
    (target_sr : Z) : Result (list sample * Z) :=
  match entry_at fs path with
  | Some (RegularFile bytes) =>
      match decode bytes with
      | None => Raise DecodeError
      | Some (channels, native_sr) =>
          Ok (to_mono (map (fun c => resample c native_sr target_sr) channels),
              target_sr)
      end
  | _ => Raise NotFoundError
  end.

(** Lines 19, 20 and 28: [audio_files = glob(path)], then
    [audio_files[0]] is evaluated for the audio widget and again as the
    argument of [librosa.load], whose pair is bound to [y, sr].  The
    widget itself belongs to the display and is left out, as the plots
    are. *)
Definition load (fs : gmap string Entry) (path : string) (target_sr : Z)
  : Result AudioBuffer :=
  let audio_files := glob fs path in
  _ <- Py.getitem audio_files 0 ;;
  first <- Py.getitem audio_files 0 ;;
  loaded <- librosa_load fs first target_sr ;;
  Ok {| samples := fst loaded; sample_rate := snd loaded |}.

(** *** Pitch shifting (lines 48 and 49)

    The DSP kernel behind the pitch shifter: [None] when the transform
    cannot run on its input. *)
Variable dsp : list sample -> Z -> Q -> option (list sample).

(** The sample of no sound. *)
Variable silence : sample.

(** Modelled from the spec: how the pitch shifter returns samples of
    equal length (section 6), its code not being part of the repository:
    the output is cut at [n] samples, or padded at the end with silence
    up to [n] samples. *)
Definition fix_length (data : list sample) (n : nat) : list sample :=
  take n data ++ replicate (n - length data) silence.

(** Modelled from the spec: [librosa.effects.pitch_shift] is an external
    library call whose code is not part of the repository.  Following
    section 4.1 of the specification it fails with [ProcessingError] when
    the underlying transform cannot run, an empty input being such a
    case; following section 6 it returns otherwise the transformed
    samples at the length of its input. *)
Definition pitch_shift (data : list sample) (rate : Z) (n_steps : Q)
  : Result (list sample) :=
  match data with
  | [] => Raise ProcessingError
  | _ :: _ =>
      match dsp data rate n_steps with
      | Some shifted => Ok (fix_length shifted (length data))
      | None => Raise ProcessingError
      end
  end.

(** Line 48 binds the shifted samples to [changing_pitch]; line 49 plays
    them at the unchanged [sr]. *)
Definition pitchShift (b : AudioBuffer) (semitoneSteps : Q)
  : Result AudioBuffer :=
  shifted <- pitch_shift (samples b) (sample_rate b) semitoneSteps ;;
  Ok {| samples := shifted; sample_rate := sample_rate b |}.

(** *** The interpreter's memory

    [y] is a numpy array: a mutable block of samples reached through a
    reference.  A one-dimensional array object with unit stride is a
    window of a block. *)
Record ndarray : Type := mkArray {
  base : positive;
  offset : nat;
  size : nat
}.

Definition contents (heap : gmap positive (list sample)) (a : ndarray)
  : list sample :=
  take (size a) (drop (offset a) (default [] (heap !! base a))).

(** Basic slicing of an array, [a[i:j]]: a new array object over the
    same block; no sample is copied or written. *)
Definition view (a : ndarray) (i j : Z) : ndarray :=
  let n := Z.of_nat (size a) in
  let start := Py.adjust_index n i in
  let stop := Py.adjust_index n j in
  {| base := base a;
     offset := (offset a + Z.to_nat start)%nat;
     size := Z.to_nat (Py.slice_length start stop) |}.

(** The variables the script has bound once the file is loaded. *)
Record State : Type := mkState {
  heap : gmap positive (list sample);
  y : ndarray;
  sr : Z;
  changing_pitch : option ndarray
}.

(** Modelled from the spec: the array-level face of
    [librosa.effects.pitch_shift], whose code is not part of the
    repository.  Following section 4.1 of the specification it reads its
    argument, does not write to it, and returns its result as a new
    array, here a newly allocated block. *)
Definition pitch_shift_array (h : gmap positive (list sample)) (a : ndarray)
    (rate : Z) (n_steps : Q)
  : Result (ndarray * gmap positive (list sample)) :=
  shifted <- pitch_shift (contents h a) rate n_steps ;;
  let l := fresh (dom h) in
  Ok ({| base := l; offset := 0; size := length shifted |},
      <[l := shifted]> h).

(** Line 42 as a statement: the zoomed array is handed to the plot and
    dropped; no variable is rebound. *)
Definition zoom (i j : Z) (st : State) : State * Result ndarray :=
  (st, Ok (view (y st) i j)).

(** Line 48 as a statement,
    [changing_pitch = librosa.effects.pitch_shift(y, sr=sr, n_steps=...)]:
    when the call raises, the assignment does not happen. *)
Definition assign_changing_pitch (n_steps : Q) (st : State)
  : State * Result ndarray :=
  match pitch_shift_array (heap st) (y st) (sr st) n_steps with
  | Ok (a, h) =>
      ({| heap := h; y := y st; sr := sr st; changing_pitch := Some a |},
       Ok a)
  | Raise e => (st, Raise e)
  end.

(** The buffer a state holds in [y] and [sr]. *)
Definition stored (st : State) : AudioBuffer :=
  {| samples := contents (heap st) (y st); sample_rate := sr st |}.

(** ** Properties of slicing *)

Lemma adjust_index_clamp (n i : Z) :
  0 <= n ->
  Py.adjust_index n i = Z.max 0 (Z.min n (if i <? 0 then i + n else i)).
Proof.
  intros Hn. unfold Py.adjust_index.
  destruct (Z.ltb_spec i 0).
  - destruct (Z.ltb_spec (i + n) 0); lia.
  - destruct (Z.leb_spec n i); lia.
Qed.

Lemma adjust_index_range (n i : Z) :
  0 <= n -> 0 <= Py.adjust_index n i <= n.
Proof. intros Hn. rewrite adjust_index_clamp by lia. lia. Qed.

Lemma adjust_index_in_bounds (n i : Z) :
  0 <= i <= n -> Py.adjust_index n i = i.
Proof.
  intros Hi. unfold Py.adjust_index.
  destruct (Z.ltb_spec i 0); [lia|].
  destruct (Z.leb_spec n i); lia.
Qed.

Lemma adjust_index_past_end (n i : Z) :
  0 <= n -> n <= i -> Py.adjust_index n i = n.
Proof.
  intros Hn Hi. unfold Py.adjust_index.
  destruct (Z.ltb_spec i 0); [lia|].
  destruct (Z.leb_spec n i); lia.
Qed.

Lemma slice_length_max (start stop : Z) :
  Py.slice_length start stop = Z.max 0 (stop - start).
Proof. unfold Py.slice_length. destruct (Z.ltb_spec start stop); lia. Qed.

Lemma getslice_length {A : Type} (xs : list A) (i j : Z) :
  let n := Z.of_nat (length xs) in
  Z.of_nat (length (Py.getslice xs i j))
  = Z.max 0 (Py.adjust_index n j - Py.adjust_index n i).
Proof.
  intros n. unfold Py.getslice. fold n.
  pose proof (adjust_index_range n i ltac:(lia)).
  pose proof (adjust_index_range n j ltac:(lia)).
  rewrite length_take, length_drop, slice_length_max. lia.
Qed.

Lemma getslice_lookup {A : Type} (xs : list A) (i j : Z) (k : nat) :
  let n := Z.of_nat (length xs) in
  Z.of_nat k < Py.adjust_index n j - Py.adjust_index n i ->
  Py.getslice xs i j !! k = xs !! (Z.to_nat (Py.adjust_index n i) + k)%nat.
Proof.
  intros n Hk. unfold Py.getslice. fold n.
  rewrite lookup_take_lt by (rewrite slice_length_max; lia).
  apply lookup_drop.
Qed.

Lemma getslice_in_bounds {A : Type} (xs : list A) (i j : Z) :
  0 <= i -> i <= j -> j <= Z.of_nat (length xs) ->
  Py.getslice xs i j = take (Z.to_nat (j - i)) (drop (Z.to_nat i) xs).
Proof.
  intros Hi Hij Hj. unfold Py.getslice.
  rewrite !adjust_index_in_bounds by lia.
  rewrite slice_length_max. f_equal. lia.
Qed.

Lemma getslice_from_start_past_end {A : Type} (xs : list A) (e : Z) :
  Z.of_nat (length xs) <= e -> Py.getslice xs 0 e = xs.
Proof.
  intros He. unfold Py.getslice.
  rewrite adjust_index_in_bounds by lia.
  rewrite adjust_index_past_end by lia.
  rewrite slice_length_max. simpl. rewrite drop_0.
  apply take_ge. lia.
Qed.

Lemma buffer_eta (b : AudioBuffer) :
  {| samples := samples b; sample_rate := sample_rate b |} = b.
Proof. destruct b; reflexivity. Qed.

(** C3 (as amended): [slice b i j] never fails.  It returns a buffer at
    the rate of [b] holding the samples from [start] up to [stop], where
    each bound is read as Python reads it (a negative bound counts from
    the end, then the bound is clamped into [0, len b]), and which is
    empty when [stop <= start]. *)
Theorem slice_never_raises (b : AudioBuffer) (i j : Z) :
  exists b' : AudioBuffer,
    slice b i j = Ok b'
    /\ sample_rate b' = sample_rate b
    /\ let start := Z.max 0 (Z.min (len b) (if i <? 0 then i + len b else i)) in
       let stop := Z.max 0 (Z.min (len b) (if j <? 0 then j + len b else j)) in
       len b' = Z.max 0 (stop - start)
       /\ forall k : nat,
            Z.of_nat k < stop - start ->
            samples b' !! k = samples b !! (Z.to_nat start + k)%nat.
Proof.
  eexists. split; [reflexivity|]. split; [reflexivity|].
  unfold len. simpl.
  rewrite <- !adjust_index_clamp by lia.
  split.
  - apply getslice_length.
  - intros k Hk. apply getslice_lookup. exact Hk.
Qed.

(** C4: slicing over the full range is the identity,
    [slice b 0 (len b) = b]. *)
Theorem slice_full_range (b : AudioBuffer) :
  slice b 0 (len b) = Ok b.
Proof.
  unfold slice, len.
  rewrite getslice_from_start_past_end by lia.
  rewrite buffer_eta. reflexivity.
Qed.

(** C5: for bounds [0 <= i <= j <= len b] the slice has exactly [j - i]
    samples, namely the samples of [b] at the indices [i], ..., [j - 1]
    in that order, and the rate of [b]. *)
Theorem slice_in_bounds (b : AudioBuffer) (i j : Z) :
  0 <= i -> i <= j -> j <= len b ->
  exists b' : AudioBuffer,
    slice b i j = Ok b'
    /\ len b' = j - i
    /\ sample_rate b' = sample_rate b
    /\ samples b' = take (Z.to_nat (j - i)) (drop (Z.to_nat i) (samples b))
    /\ forall k : nat,
         Z.of_nat k < j - i ->
         exists x : sample,
           samples b' !! k = Some x
           /\ samples b !! (Z.to_nat i + k)%nat = Some x.
Proof.
  unfold len. intros Hi Hij Hj.
  eexists. split; [reflexivity|]. simpl.
  pose proof (getslice_length (samples b) i j) as Hlen.
  pose proof (getslice_lookup (samples b) i j) as Hlook.
  simpl in Hlen, Hlook.
  rewrite !adjust_index_in_bounds in Hlen, Hlook by lia.
  repeat split.
  - lia.
  - apply getslice_in_bounds; lia.
  - intros k Hk.
    destruct (lookup_lt_is_Some_2 (samples b) (Z.to_nat i + k)) as [x Hx];
      [lia|].
    exists x. split; [|exact Hx].
    rewrite Hlook by lia. exact Hx.
Qed.

(** C9: an end bound past the last sample does not fail; [samples[0:e]]
    with [e > len b] is clamped and returns every sample of [b]. *)
Theorem slice_end_past_length (b : AudioBuffer) (e : Z) :
  e > len b ->
  Py.getslice (samples b) 0 e = samples b
  /\ slice b 0 e = Ok b.
Proof.
  unfold len. intros He.
  assert (Py.getslice (samples b) 0 e = samples b) as Hs
    by (apply getslice_from_start_past_end; lia).
  split; [exact Hs|].
  unfold slice. rewrite Hs, buffer_eta. reflexivity.
Qed.

(** ** Properties of loading *)

Lemma getitem_singleton {A : Type} (x : A) : Py.getitem [x] 0 = Ok x.
Proof. reflexivity. Qed.

Lemma getitem_empty {A : Type} (i : Z) : Py.getitem (@nil A) i = Raise IndexError.
Proof.
  unfold Py.getitem. simpl.
  destruct (_ || _); reflexivity.
Qed.

(** *** Pathnames *)

Lemma rpartition_tail_empty (p head : string) :
  Py.rpartition p = (head, EmptyString) -> head = p.
Proof.
  revert head. induction p as [|c p IH]; simpl; intros head Hp.
  - congruence.
  - destruct (Py.rpartition p) as [h t] eqn:Hr. destruct h as [|c' h].
    + destruct (Py.is_sep c); [|discriminate].
      injection Hp as <- ->. rewrite <- (IH EmptyString eq_refl). reflexivity.
    + injection Hp as <- ->. rewrite <- (IH _ eq_refl). reflexivity.
Qed.

Lemma rpartition_all_sep (s : string) :
  Py.all_sep s = true -> Py.rpartition s = (s, EmptyString).
Proof.
  induction s as [|c s IH]; simpl; [reflexivity|].
  intros [Hc Hs]%andb_true_iff. rewrite (IH Hs), Hc.
  destruct s; reflexivity.
Qed.

Lemma rstrip_sep_empty (s : string) :
  Py.rstrip_sep s = EmptyString -> Py.all_sep s = true.
Proof.
  destruct s as [|c s]; simpl; [reflexivity|].
  destruct (Py.is_sep c && Py.all_sep s); [reflexivity|discriminate].
Qed.

Lemma rpartition_rstrip_sep_tail (s : string) :
  Py.rstrip_sep s <> EmptyString ->
  snd (Py.rpartition (Py.rstrip_sep s)) <> EmptyString.
Proof.
  induction s as [|c s IH]; simpl; [congruence|].
  destruct (Py.is_sep c && Py.all_sep s) eqn:Hall; [congruence|].
  intros _. simpl.
  destruct (Py.rstrip_sep s) as [|c' r] eqn:Hr.
  - apply rstrip_sep_empty in Hr. rewrite Hr, andb_true_r in Hall.
    simpl. rewrite Hall. simpl. discriminate.
  - specialize (IH ltac:(discriminate)).
    destruct (Py.rpartition (String c' r)) as [h t]. simpl in IH.
    destruct h; [destruct (Py.is_sep c)|]; simpl; congruence.
Qed.

Lemma split_all_sep (s : string) :
  Py.all_sep s = true -> Py.split s = (s, EmptyString).
Proof.
  intros Hall. unfold Py.split.
  rewrite (rpartition_all_sep _ Hall), Hall.
  destruct s; reflexivity.
Qed.

(** The head of a split pathname is a directory for [isdir] exactly when
    the map holds a directory at it, the root standing for every head
    made of slashes only. *)
Lemma entry_at_split_head (fs : gmap string Entry) (p dirname : string) :
  p <> EmptyString ->
  Py.split p = (dirname, EmptyString) ->
  isdir fs dirname
  = match fs !! (if Py.all_sep dirname then "/" else dirname) with
    | Some Directory => true
    | _ => false
    end.
Proof.
  intros Hp Hsplit. unfold Py.split in Hsplit.
  destruct (Py.rpartition p) as [h t] eqn:Hr.
  injection Hsplit as Hd ->.
  apply rpartition_tail_empty in Hr. subst h.
  destruct p as [|c p]; [congruence|].
  unfold isdir, entry_at.
  destruct (Py.all_sep (String c p)) eqn:Hall.
  - subst dirname.
    rewrite (split_all_sep _ Hall), Hall.
    destruct (fs !! "/") as [[]|]; reflexivity.
  - assert (Py.rstrip_sep (String c p) <> EmptyString) as Hne.
    { intros He. apply rstrip_sep_empty in He. congruence. }
    pose proof (rpartition_rstrip_sep_tail _ Hne) as Htail.
    rewrite Hd in Hne, Htail.
    destruct dirname as [|c' d]; [congruence|].
    assert (Py.all_sep (String c' d) = false) as Hnall.
    { destruct (Py.all_sep (String c' d)) eqn:Ha; [|reflexivity].
      rewrite (rpartition_all_sep _ Ha) in Htail. simpl in Htail. congruence. }
    rewrite Hnall. unfold Py.split.
    destruct (Py.rpartition (String c' d)) as [h t]. simpl in Htail.
    destruct t; [congruence|].
    destruct (fs !! String c' d) as [[]|]; reflexivity.
Qed.

(** *** The glob of a pathname without wildcard characters *)

Lemma glob_literal (fs : gmap string Entry) (path : string) :
  Py.has_magic path = false ->
  glob fs path = if lexists fs path then [path] else [].
Proof.
  intros Hm. unfold glob. rewrite Hm.
  destruct (Py.split path) as [dirname basename] eqn:Hsplit.
  destruct basename as [|c basename]; [|reflexivity].
  destruct path as [|c path].
  - cbv in Hsplit. injection Hsplit as <-. reflexivity.
  - rewrite (entry_at_split_head fs (String c path) dirname
               ltac:(discriminate) Hsplit).
    unfold lexists, entry_at. rewrite Hsplit.
    destruct (fs !! _) as [[]|]; reflexivity.
Qed.

Lemma load_existing (fs : gmap string Entry) (path : string)
    (target : Z) (bytes : list Byte.byte) :
  Py.has_magic path = false ->
  entry_at fs path = Some (RegularFile bytes) ->
  load fs path target
  = (loaded <- librosa_load fs path target ;;
     Ok {| samples := fst loaded; sample_rate := snd loaded |}).
Proof.
  intros Hm Hfile. unfold load.
  rewrite glob_literal by exact Hm. unfold lexists. rewrite Hfile.
  rewrite getitem_singleton. reflexivity.
Qed.

(** C2: for a path that names an existing, decodable file and a positive
    target rate, [load] returns a buffer whose rate is the target rate;
    its samples are the decoder output, resampled to the target rate and
    collapsed to mono. *)
Theorem load_sample_rate (fs : gmap string Entry) (path : string)
    (target : Z) (bytes : list Byte.byte) (channels : list (list sample))
    (native_sr : Z) :
  Py.has_magic path = false ->
  entry_at fs path = Some (RegularFile bytes) ->
  decode bytes = Some (channels, native_sr) ->
  0 < target ->
  exists b : AudioBuffer,
    load fs path target = Ok b
    /\ sample_rate b = target
    /\ samples b
       = to_mono (map (fun c => resample c native_sr target) channels).
Proof.
  intros Hm Hfile Hdec _.
  rewrite (load_existing fs path target bytes Hm Hfile).
  unfold librosa_load. rewrite Hfile, Hdec. simpl.
  eexists. split; [reflexivity|]. split; reflexivity.
Qed.

(** C6 (as amended): for a pathname without wildcard characters and a
    positive target rate, [load] fails with [IndexError] when nothing
    exists at the path, neither a file nor a directory nor a link,
    raised by [audio_files[0]] on the empty list of matches before the
    decoder is called; and it fails with [DecodeError]
    when a regular file exists at the path and is not parseable audio.
    In both cases the outcome is that error alone, without a buffer. *)
Theorem load_failures (fs : gmap string Entry) (path : string) (target : Z) :
  Py.has_magic path = false ->
  0 < target ->
  (entry_at fs path = None -> load fs path target = Raise IndexError)
  /\ (forall bytes : list Byte.byte,
        entry_at fs path = Some (RegularFile bytes) -> decode bytes = None ->
        load fs path target = Raise DecodeError).
Proof.
  intros Hm _. split.
  - intros Hnone. unfold load.
    rewrite glob_literal by exact Hm. unfold lexists. rewrite Hnone.
    rewrite getitem_empty. reflexivity.
  - intros bytes Hfile Hdec.
    rewrite (load_existing fs path target bytes Hm Hfile).
    unfold librosa_load. rewrite Hfile, Hdec. reflexivity.
Qed.

(** ** Properties of the interpreter's memory *)

Lemma contents_fresh_block (h : gmap positive (list sample)) (l : positive)
    (data : list sample) :
  contents (<[l := data]> h) {| base := l; offset := 0; size := length data |}
  = data.
Proof.
  unfold contents. simpl. rewrite lookup_insert_eq. simpl.
  rewrite drop_0. apply take_ge. lia.
Qed.

Lemma contents_other_block (h : gmap positive (list sample)) (l : positive)
    (data : list sample) (a : ndarray) :
  base a <> l ->
  contents (<[l := data]> h) a = contents h a.
Proof.
  intros Hne. unfold contents.
  rewrite lookup_insert_ne by congruence. reflexivity.
Qed.

Lemma fresh_block_unused (h : gmap positive (list sample)) :
  h !! fresh (dom h) = None.
Proof. apply not_elem_of_dom. apply is_fresh. Qed.

Lemma contents_after_alloc (h : gmap positive (list sample))
    (data : list sample) (a : ndarray) :
  is_Some (h !! base a) ->
  contents (<[fresh (dom h) := data]> h) a = contents h a.
Proof.
  intros [old Hold]. apply contents_other_block.
  intros Heq. rewrite Heq, fresh_block_unused in Hold. discriminate.
Qed.

(** A window inside its block: slicing the array object agrees with
    slicing its samples. *)
Lemma contents_view (h : gmap positive (list sample)) (a : ndarray) (i j : Z) :
  (offset a + size a <= length (default [] (h !! base a)))%nat ->
  contents h (view a i j) = Py.getslice (contents h a) i j.
Proof.
  intros Hwf. unfold contents, view, Py.getslice. simpl.
  set (block := default [] (h !! base a)) in *.
  assert (length (take (size a) (drop (offset a) block)) = size a) as Hlen
    by (rewrite length_take, length_drop; lia).
  rewrite Hlen.
  set (n := Z.of_nat (size a)).
  pose proof (adjust_index_range n i ltac:(lia)) as Hi.
  pose proof (adjust_index_range n j ltac:(lia)) as Hj.
  set (start := Z.to_nat (Py.adjust_index n i)).
  set (k := Z.to_nat (Py.slice_length (Py.adjust_index n i) (Py.adjust_index n j))).
  assert (start + k <= size a)%nat as Hk
    by (unfold start, k; rewrite slice_length_max; lia).
  replace (size a) with (start + (size a - start))%nat at 1 by lia.
  rewrite <- take_drop_commute, take_take, drop_drop.
  f_equal. lia.
Qed.

(** ** Properties of pitch shifting *)

Lemma fix_length_length (data : list sample) (n : nat) :
  length (fix_length data n) = n.
Proof.
  unfold fix_length.
  rewrite length_app, length_take, length_replicate. lia.
Qed.

Lemma pitch_shift_raises_only_ProcessingError (data : list sample) (rate : Z)
    (n_steps : Q) (e : Error) :
  pitch_shift data rate n_steps = Raise e ->
  e = ProcessingError /\ (data = [] \/ dsp data rate n_steps = None).
Proof.
  unfold pitch_shift. destruct data as [|x data'].
  - intros [= <-]. split; [reflexivity|left; reflexivity].
  - destruct (dsp (x :: data') rate n_steps) as [shifted|] eqn:Hdsp.
    + discriminate.
    + intros [= <-]. split; [reflexivity|right; reflexivity].
Qed.

Lemma pitch_shift_cannot_run (data : list sample) (rate : Z) (n_steps : Q) :
  data = [] \/ dsp data rate n_steps = None ->
  pitch_shift data rate n_steps = Raise ProcessingError.
Proof.
  unfold pitch_shift. intros [-> | Hdsp]; [reflexivity|].
  destruct data; [reflexivity|]. rewrite Hdsp. reflexivity.
Qed.


Lemma pitch_shift_returns (data out : list sample) (rate : Z) (n_steps : Q) :
  pitch_shift data rate n_steps = Ok out ->
  data <> [] /\ length out = length data.
Proof.
  unfold pitch_shift. destruct data as [|x data']; [discriminate|].
  destruct (dsp (x :: data') rate n_steps) as [shifted|]; [|discriminate].
  intros [= <-]. split; [discriminate|apply fix_length_length].
Qed.

Lemma assign_changing_pitch_keeps_stored (n_steps : Q) (st : State) :
  stored (fst (assign_changing_pitch n_steps st)) = stored st.
Proof.
  unfold assign_changing_pitch, pitch_shift_array, stored.
  destruct (pitch_shift (contents (heap st) (y st)) (sr st) n_steps)
    as [shifted|e] eqn:Hps; simpl; [|reflexivity].
  f_equal. apply contents_after_alloc.
  destruct (heap st !! base (y st)) as [block|] eqn:Hy; [eauto|].
  apply pitch_shift_returns in Hps as [Hne _].
  exfalso. apply Hne. unfold contents. rewrite Hy. simpl.
  rewrite drop_nil. apply take_nil.
Qed.

(** The statement of line 48 computes what [pitchShift] computes on the
    stored buffer: the same samples in a new array on success, the same
    exception and the state as it was on failure. *)
Lemma assign_changing_pitch_pitchShift (n_steps : Q) (st : State) :
  match pitchShift (stored st) n_steps with
  | Ok b' =>
      exists (a : ndarray) (st' : State),
        assign_changing_pitch n_steps st = (st', Ok a)
        /\ changing_pitch st' = Some a
        /\ contents (heap st') a = samples b'
        /\ sr st' = sample_rate b'
  | Raise e => assign_changing_pitch n_steps st = (st, Raise e)
  end.
Proof.
  unfold pitchShift, assign_changing_pitch, pitch_shift_array, stored. simpl.
  destruct (pitch_shift (contents (heap st) (y st)) (sr st) n_steps)
    as [shifted|e]; simpl.
  - eexists _, _. split; [reflexivity|]. simpl.
    split; [reflexivity|]. split; [|reflexivity].
    apply contents_fresh_block.
  - reflexivity.
Qed.


(** C7 (as amended): neither transform changes the buffer it is applied
    to, but only the pitch shift returns a new buffer.  Zooming leaves
    the whole state as it was, and its result is an array over the block
    of [y] itself, holding the sliced samples of [y] without a copy.
    The pitch-shift statement leaves the stored buffer ([y] and [sr]) as
    it was, leaves the samples of every array that existed before the
    call as they were, and returns its result in a block that did not
    exist before. *)
Theorem transforms_do_not_mutate (st : State) (i j : Z) (n_steps : Q) :
  (fst (zoom i j st) = st
   /\ exists v : ndarray,
        snd (zoom i j st) = Ok v
        /\ base v = base (y st)
        /\ ((offset (y st) + size (y st)
             <= length (default [] (heap st !! base (y st))))%nat ->
            contents (heap st) v = Py.getslice (contents (heap st) (y st)) i j))
  /\ stored (fst (assign_changing_pitch n_steps st)) = stored st
  /\ (forall a : ndarray,
        is_Some (heap st !! base a) ->
        contents (heap (fst (assign_changing_pitch n_steps st))) a
        = contents (heap st) a)
  /\ (forall a : ndarray,
        snd (assign_changing_pitch n_steps st) = Ok a ->
        heap st !! base a = None).
Proof.
  split.
  { split; [reflexivity|]. exists (view (y st) i j).
    split; [reflexivity|]. split; [reflexivity|].
    intros Hwf. apply contents_view. exact Hwf. }
  split; [apply assign_changing_pitch_keeps_stored|].
  unfold assign_changing_pitch, pitch_shift_array.
  destruct (pitch_shift (contents (heap st) (y st)) (sr st) n_steps)
    as [shifted|e] eqn:Hps; simpl.
  - split.
    + intros a Ha. apply contents_after_alloc. exact Ha.
    + intros a [= <-]. simpl. apply fresh_block_unused.
  - split; [reflexivity|]. discriminate.
Qed.

(** C8: when the underlying transform cannot run, and so whenever the
    buffer is empty, [pitchShift] fails with [ProcessingError]; the
    statement of line 48 then yields no array and leaves the state,
    [changing_pitch] included, as it was. *)
Theorem pitchShift_fails_when_transform_cannot_run (b : AudioBuffer)
    (semitoneSteps : Q) :
  samples b = [] \/ dsp (samples b) (sample_rate b) semitoneSteps = None ->
  pitchShift b semitoneSteps = Raise ProcessingError
  /\ forall st : State,
       stored st = b ->
       assign_changing_pitch semitoneSteps st = (st, Raise ProcessingError).
Proof.
  intros Hcannot.
  assert (pitchShift b semitoneSteps = Raise ProcessingError) as Hv.
  { unfold pitchShift. rewrite pitch_shift_cannot_run by exact Hcannot.
    reflexivity. }
  split; [exact Hv|].
  intros st <-.
  pose proof (assign_changing_pitch_pitchShift semitoneSteps st) as Href.
  rewrite Hv in Href. exact Href.
Qed.

(** ** Further properties of slicing (lines 29 and 42) *)

Lemma adjust_index_nonneg (n i : Z) :
  0 <= n -> 0 <= i -> Py.adjust_index n i = Z.min i n.
Proof.
  intros Hn Hi. unfold Py.adjust_index.
  destruct (Z.ltb_spec i 0); [lia|].
  destruct (Z.leb_spec n i); lia.
Qed.

Lemma getslice_take_drop {A : Type} (xs : list A) (i j : Z) :
  let n := Z.of_nat (length xs) in
  Py.getslice xs i j
  = take (Z.to_nat (Py.adjust_index n j - Py.adjust_index n i))
         (drop (Z.to_nat (Py.adjust_index n i)) xs).
Proof.
  intros n. unfold Py.getslice. fold n.
  rewrite slice_length_max. f_equal. lia.
Qed.

(** With bounds that are not negative, a slice is the plain window: drop
    the first [i] elements, keep up to [j - i]. *)
Lemma getslice_nonneg {A : Type} (xs : list A) (i j : Z) :
  0 <= i -> 0 <= j ->
  Py.getslice xs i j = take (Z.to_nat j - Z.to_nat i) (drop (Z.to_nat i) xs).
Proof.
  intros Hi Hj. rewrite getslice_take_drop.
  rewrite !adjust_index_nonneg by lia.
  destruct (Z.le_gt_cases (Z.of_nat (length xs)) i) as [Hout|Hin].
  - rewrite !drop_ge by lia. rewrite !take_nil. reflexivity.
  - replace (Z.to_nat (Z.min i (Z.of_nat (length xs)))) with (Z.to_nat i) by lia.
    destruct (Z.le_gt_cases (Z.of_nat (length xs)) j) as [Hjout|Hjin].
    + rewrite !take_ge by (rewrite length_drop; lia). reflexivity.
    + f_equal. lia.
Qed.

(** X1: with a bound [e] that is not negative, [xs[0:e]] is the prefix of
    the first [e] elements, the whole sequence when it has fewer; so the
    preview [y[:15]] and the zoom [y[0:200000]] hold [min e (len y)]
    samples. *)
Theorem getslice_from_start_is_prefix {A : Type} (xs : list A) (e : Z) :
  0 <= e ->
  Py.getslice xs 0 e = take (Z.to_nat e) xs
  /\ Z.of_nat (length (Py.getslice xs 0 e)) = Z.min e (Z.of_nat (length xs)).
Proof.
  intros He.
  assert (Py.getslice xs 0 e = take (Z.to_nat e) xs) as Hp.
  { rewrite getslice_nonneg by lia. simpl. rewrite drop_0. f_equal. lia. }
  split; [exact Hp|]. rewrite Hp, length_take. lia.
Qed.

(** X2: whatever the bounds, also negative or out of range, a slice is
    one contiguous run of the sequence: the samples before it, the slice
    and the samples after it make up the sequence again, so a slice
    never reorders, repeats or invents a sample and is never longer than
    its source. *)
Theorem getslice_is_contiguous_run {A : Type} (xs : list A) (i j : Z) :
  exists before after : list A,
    xs = before ++ Py.getslice xs i j ++ after
    /\ Z.of_nat (length before)
       = Py.adjust_index (Z.of_nat (length xs)) i
    /\ (length (Py.getslice xs i j) <= length xs)%nat.
Proof.
  pose proof (adjust_index_range (Z.of_nat (length xs)) i ltac:(lia)) as Hi.
  rewrite getslice_take_drop.
  set (start := Z.to_nat (Py.adjust_index (Z.of_nat (length xs)) i)).
  set (count := Z.to_nat (Py.adjust_index (Z.of_nat (length xs)) j
                          - Py.adjust_index (Z.of_nat (length xs)) i)).
  exists (take start xs), (drop count (drop start xs)).
  split; [|split].
  - rewrite (take_drop count (drop start xs)).
    rewrite (take_drop start xs). reflexivity.
  - rewrite length_take. unfold start. lia.
  - rewrite length_take, length_drop. lia.
Qed.

(** X3: two adjacent windows make up the window that spans them: for
    [0 <= i <= k <= j], [xs[i:k] ++ xs[k:j] = xs[i:j]], also when some of
    the bounds lie past the end. *)
Theorem getslice_adjacent_windows {A : Type} (xs : list A) (i k j : Z) :
  0 <= i -> i <= k -> k <= j ->
  Py.getslice xs i k ++ Py.getslice xs k j = Py.getslice xs i j.
Proof.
  intros Hi Hik Hkj.
  rewrite !getslice_nonneg by lia.
  replace (drop (Z.to_nat k) xs)
    with (drop (Z.to_nat k - Z.to_nat i) (drop (Z.to_nat i) xs))
    by (rewrite drop_drop; f_equal; lia).
  rewrite take_take_drop. f_equal. lia.
Qed.

(** X4: a slice of a slice is a slice of the sequence: for bounds that
    are not negative, [(xs[i:j])[k:l] = xs[i+k : min j (i+l)]]. *)
Theorem getslice_of_getslice {A : Type} (xs : list A) (i j k l : Z) :
  0 <= i -> 0 <= j -> 0 <= k -> 0 <= l ->
  Py.getslice (Py.getslice xs i j) k l
  = Py.getslice xs (i + k) (Z.min j (i + l)).
Proof.
  intros Hi Hj Hk Hl.
  rewrite !getslice_nonneg by lia.
  apply list_eq. intros p.
  rewrite !lookup_take, !lookup_drop, lookup_take, lookup_drop.
  repeat case_decide; try lia; try reflexivity.
  f_equal. lia.
Qed.

(** X5: cutting at any integer [k], negative or past the end included,
    loses nothing: [xs[0:k] ++ xs[k:len xs] = xs]. *)
Theorem getslice_split_anywhere {A : Type} (xs : list A) (k : Z) :
  Py.getslice xs 0 k ++ Py.getslice xs k (Z.of_nat (length xs)) = xs.
Proof.
  pose proof (adjust_index_range (Z.of_nat (length xs)) k ltac:(lia)) as Hk.
  rewrite !getslice_take_drop.
  rewrite (adjust_index_in_bounds _ 0) by lia.
  rewrite (adjust_index_in_bounds _ (Z.of_nat (length xs))) by lia.
  simpl. rewrite drop_0, Z.sub_0_r.
  rewrite (take_ge (drop _ xs)) by (rewrite length_drop; lia).
  apply take_drop.
Qed.

(** X6: a negative start counts from the end: for [0 < k <= len xs],
    [xs[-k : len xs]] is the last [k] elements. *)
Theorem getslice_negative_start {A : Type} (xs : list A) (k : Z) :
  0 < k -> k <= Z.of_nat (length xs) ->
  Py.getslice xs (- k) (Z.of_nat (length xs))
  = drop (length xs - Z.to_nat k) xs
  /\ Z.of_nat (length (Py.getslice xs (- k) (Z.of_nat (length xs)))) = k.
Proof.
  intros Hk Hle.
  assert (Py.adjust_index (Z.of_nat (length xs)) (- k)
          = Z.of_nat (length xs) - k) as Hstart.
  { unfold Py.adjust_index.
    destruct (Z.ltb_spec (- k) 0); [|lia].
    destruct (Z.ltb_spec (- k + Z.of_nat (length xs)) 0); lia. }
  assert (Py.getslice xs (- k) (Z.of_nat (length xs))
          = drop (length xs - Z.to_nat k) xs) as Hs.
  { rewrite getslice_take_drop, Hstart.
    rewrite (adjust_index_in_bounds _ (Z.of_nat (length xs))) by lia.
    replace (Z.to_nat (Z.of_nat (length xs) - k))
      with (length xs - Z.to_nat k)%nat by lia.
    apply take_ge. rewrite length_drop. lia. }
  split; [exact Hs|]. rewrite Hs, length_drop. lia.
Qed.

(** ** Further properties of loading (lines 19 and 20) *)

(** X7: for a pathname without wildcard characters, [audio_files[0]]
    either is that very pathname, and then something exists at it (a
    file, a directory or a link, a dangling one included), or raises
    [IndexError], and then nothing exists at it; no other pathname than
    the one globbed reaches the decoder. *)
Theorem first_match_is_existing_path (fs : gmap string Entry)
    (path : string) :
  Py.has_magic path = false ->
  match Py.getitem (glob fs path) 0 with
  | Ok first => first = path /\ is_Some (entry_at fs path)
  | Raise e => e = IndexError /\ entry_at fs path = None
  end.
Proof.
  intros Hm. rewrite glob_literal by exact Hm. unfold lexists.
  destruct (entry_at fs path) as [entry|] eqn:Hentry.
  - rewrite getitem_singleton. split; [reflexivity|eauto].
  - rewrite getitem_empty. split; reflexivity.
Qed.

(** ** Further properties of arrays in memory (lines 42 and 48) *)

(** X9: whatever the bounds, the array object made by [a[i:j]] lives in
    the block of [a] and its window lies inside the window of [a]; it
    reaches no sample that [a] does not reach. *)
Theorem view_within_window (a : ndarray) (i j : Z) :
  base (view a i j) = base a
  /\ (offset a <= offset (view a i j))%nat
  /\ (offset (view a i j) + size (view a i j) <= offset a + size a)%nat.
Proof.
  pose proof (adjust_index_range (Z.of_nat (size a)) i ltac:(lia)) as Hi.
  pose proof (adjust_index_range (Z.of_nat (size a)) j ltac:(lia)) as Hj.
  unfold view. simpl. rewrite slice_length_max.
  split; [reflexivity|]. split; lia.
Qed.

(** X10: zooming returns a view, not a copy: when [y] lies inside its
    block, the array of [y[i:j]] shares the block of [y], and read
    through memory it holds the samples that [slice] returns on the
    stored buffer. *)
Theorem zoom_is_view_of_slice (st : State) (i j : Z) :
  (offset (y st) + size (y st)
   <= length (default [] (heap st !! base (y st))))%nat ->
  exists v : ndarray,
    snd (zoom i j st) = Ok v
    /\ base v = base (y st)
    /\ slice (stored st) i j
       = Ok {| samples := contents (heap st) v; sample_rate := sr st |}.
Proof.
  intros Hwf. exists (view (y st) i j).
  split; [reflexivity|]. split; [reflexivity|].
  unfold slice, stored. simpl.
  rewrite contents_view by exact Hwf. reflexivity.
Qed.

End Script.

Arguments mkBuffer {sample}.
Arguments samples {sample}.
Arguments sample_rate {sample}.
Arguments len {sample}.
Arguments slice {sample}.
Arguments librosa_load {sample}.
Arguments load {sample}.
Arguments fix_length {sample}.
Arguments pitch_shift {sample}.
Arguments pitchShift {sample}.
Arguments contents {sample}.
Arguments mkState {sample}.
Arguments heap {sample}.
Arguments y {sample}.
Arguments sr {sample}.
Arguments changing_pitch {sample}.
Arguments pitch_shift_array {sample}.
Arguments zoom {sample}.
Arguments assign_changing_pitch {sample}.
Arguments stored {sample}.

(** ** The statements on explicit inputs *)



(** C2 on a two-sample file that the toy decoder accepts. *)
Lemma load_sample_rate_witness :
  exists b : AudioBuffer Z,
    load toy_glob_magic toy_decode toy_resample toy_to_mono
         {[ "tone.wav" := RegularFile [Byte.x01; Byte.x05; Byte.x07] ]}
         "tone.wav" 41000
    = Ok b
    /\ sample_rate b = 41000
    /\ samples b
       = toy_to_mono (map (fun c => toy_resample c 8000 41000) [[5; 7]]).
Proof.
  apply (load_sample_rate Z toy_glob_magic toy_decode toy_resample toy_to_mono
           {[ "tone.wav" := RegularFile [Byte.x01; Byte.x05; Byte.x07] ]}
           "tone.wav" 41000 [Byte.x01; Byte.x05; Byte.x07] [[5; 7]] 8000);
    reflexivity.
Defined.

(** C3 fails on the code: with an unordered pair of bounds, with a
    negative start and with an end past the last sample, the slice of a
    five-sample buffer is returned and no [RangeError] is raised. *)
Lemma slice_raises_no_RangeError :
  let b := {| samples := [1; 2; 3; 4; 5]; sample_rate := 41000 |} in
  (3 > 1
   /\ slice b 3 1 = Ok {| samples := []; sample_rate := 41000 |}
   /\ slice b 3 1 <> Raise RangeError)
  /\ (-2 < 0
      /\ slice b (-2) 5 = Ok {| samples := [4; 5]; sample_rate := 41000 |}
      /\ slice b (-2) 5 <> Raise RangeError)
  /\ (200000 > len b
      /\ slice b 0 200000 = Ok b
      /\ slice b 0 200000 <> Raise RangeError).
Proof.
  repeat split; try reflexivity; discriminate.
Qed.

(** C5 on the bounds 1 and 4 of a five-sample buffer. *)
Lemma slice_in_bounds_witness :
  exists b' : AudioBuffer Z,
    slice {| samples := [10; 20; 30; 40; 50]; sample_rate := 41000 |} 1 4 = Ok b'
    /\ len b' = 4 - 1
    /\ sample_rate b' = 41000
    /\ samples b' = take (Z.to_nat (4 - 1)) (drop (Z.to_nat 1) [10; 20; 30; 40; 50])
    /\ forall k : nat,
         Z.of_nat k < 4 - 1 ->
         exists x : Z,
           samples b' !! k = Some x
           /\ [10; 20; 30; 40; 50] !! (Z.to_nat 1 + k)%nat = Some x.
Proof.
  apply (slice_in_bounds Z
           {| samples := [10; 20; 30; 40; 50]; sample_rate := 41000 |} 1 4);
    unfold len; simpl; lia.
Defined.

(** C6 fails on the code: for the script's own path on a file system
    where nothing exists at it, [load] raises [IndexError], not
    [NotFoundError]. *)
Lemma load_missing_file_raises_IndexError :
  let path := "/Users/paulgarces/Desktop/theysayitswonderful.mp3" in
  entry_at ∅ path = None
  /\ load toy_glob_magic toy_decode toy_resample toy_to_mono ∅ path 41000
     = Raise IndexError
  /\ load toy_glob_magic toy_decode toy_resample toy_to_mono ∅ path 41000
     <> @Raise (AudioBuffer Z) NotFoundError.
Proof.
  repeat split; try reflexivity; discriminate.
Qed.

(** C6 (as amended) on a path where nothing exists and on a text file. *)
Lemma load_failures_witness :
  load toy_glob_magic toy_decode toy_resample toy_to_mono
       ∅ "missing.mp3" 41000
  = @Raise (AudioBuffer Z) IndexError
  /\ load toy_glob_magic toy_decode toy_resample toy_to_mono
          {[ "notes.txt" := RegularFile [Byte.x68; Byte.x69] ]}
          "notes.txt" 41000
     = @Raise (AudioBuffer Z) DecodeError.
Proof.
  split.
  - apply (proj1 (load_failures Z toy_glob_magic toy_decode toy_resample
                    toy_to_mono ∅ "missing.mp3" 41000 eq_refl eq_refl)).
    reflexivity.
  - apply (proj2 (load_failures Z toy_glob_magic toy_decode toy_resample
                    toy_to_mono
                    {[ "notes.txt" := RegularFile [Byte.x68; Byte.x69] ]}
                    "notes.txt" 41000 eq_refl eq_refl) [Byte.x68; Byte.x69]);
      reflexivity.
Defined.

(** C7 fails on the code for the slice: the array that the script's own
    zoom [y[0:200000]] returns over five samples is the window of [y] on
    the block of [y], which existed before; no new buffer is made. *)
Lemma zoom_returns_no_new_buffer :
  let st : State Z :=
    mkState {[ 1%positive := [1; 2; 3; 4; 5] ]}
            {| base := 1; offset := 0; size := 5 |} 41000 None in
  snd (zoom 0 200000 st) = Ok {| base := 1; offset := 0; size := 5 |}
  /\ y st = {| base := 1; offset := 0; size := 5 |}
  /\ heap st !! 1%positive = Some [1; 2; 3; 4; 5].
Proof.
  repeat split; reflexivity.
Qed.

(** C7 (as amended) on a state whose [y] holds three samples: after the
    pitch-shift statement [y] still holds them and the result lives
    elsewhere, while the zoomed array lives in the block of [y]. *)
Lemma transforms_do_not_mutate_witness :
  let st := mkState {[ 1%positive := [1; 2; 3] ]}
                    {| base := 1; offset := 0; size := 3 |} 41000 None in
  contents (heap (fst (assign_changing_pitch toy_dsp 0 4 st))) (y st) = [1; 2; 3]
  /\ snd (assign_changing_pitch toy_dsp 0 4 st)
     = Ok {| base := 2; offset := 0; size := 3 |}
  /\ exists v : ndarray,
       snd (zoom 0 200000 st) = Ok v
       /\ base v = 1%positive
       /\ ((0 + 3 <= 3)%nat ->
           contents (heap st) v = Py.getslice [1; 2; 3] 0 200000).
Proof.
  intros st. split; [|split].
  - apply (proj1 (proj2 (proj2 (transforms_do_not_mutate Z toy_dsp 0 st
                                  0 200000 4)))
             (y st)).
    exists [1; 2; 3]. reflexivity.
  - reflexivity.
  - exact (proj2 (proj1 (transforms_do_not_mutate Z toy_dsp 0 st 0 200000 4))).
Defined.

(** C8 on the empty buffer. *)
Lemma pitchShift_fails_when_transform_cannot_run_witness :
  pitchShift toy_dsp 0 {| samples := []; sample_rate := 41000 |} 4
  = Raise ProcessingError
  /\ forall st : State Z,
       stored st = {| samples := []; sample_rate := 41000 |} ->
       assign_changing_pitch toy_dsp 0 4 st = (st, Raise ProcessingError).
Proof.
  apply (pitchShift_fails_when_transform_cannot_run Z toy_dsp 0
           {| samples := []; sample_rate := 41000 |} 4).
  left. reflexivity.
Defined.

(** C9 on the script's own bound, [y[0:200000]], over five samples. *)
Lemma slice_end_past_length_witness :
  Py.getslice [1; 2; 3; 4; 5] 0 200000 = [1; 2; 3; 4; 5]
  /\ slice {| samples := [1; 2; 3; 4; 5]; sample_rate := 41000 |} 0 200000
     = Ok {| samples := [1; 2; 3; 4; 5]; sample_rate := 41000 |}.
Proof.
  apply (slice_end_past_length Z
           {| samples := [1; 2; 3; 4; 5]; sample_rate := 41000 |} 200000).
  reflexivity.
Defined.

(** [posixpath.split] on the script's path and on trailing slashes. *)
Example split_examples :
  Py.split "/Users/paulgarces/Desktop/theysayitswonderful.mp3"
  = ("/Users/paulgarces/Desktop", "theysayitswonderful.mp3")
  /\ Py.split "takes//" = ("takes", "")
  /\ Py.split "//" = ("//", "")
  /\ Py.split "tone.wav" = ("", "tone.wav").
Proof. repeat split; reflexivity. Qed.

(** ** The further properties on explicit inputs *)

(** X1 on the preview bound 15 over five samples. *)
Lemma getslice_from_start_is_prefix_witness :
  Py.getslice [1; 2; 3; 4; 5] 0 15 = take (Z.to_nat 15) [1; 2; 3; 4; 5]
  /\ Z.of_nat (length (Py.getslice [1; 2; 3; 4; 5] 0 15))
     = Z.min 15 (Z.of_nat (length [1; 2; 3; 4; 5])).
Proof.
  apply (getslice_from_start_is_prefix [1; 2; 3; 4; 5] 15). lia.
Defined.

(** X3 on windows that meet at 3, the second one running past the end. *)
Lemma getslice_adjacent_windows_witness :
  Py.getslice [1; 2; 3; 4; 5] 1 3 ++ Py.getslice [1; 2; 3; 4; 5] 3 200000
  = Py.getslice [1; 2; 3; 4; 5] 1 200000.
Proof.
  apply (getslice_adjacent_windows [1; 2; 3; 4; 5] 1 3 200000); lia.
Defined.

(** X4 on the window 1 to 5 of six samples, sliced again from 1 on. *)
Lemma getslice_of_getslice_witness :
  Py.getslice (Py.getslice [1; 2; 3; 4; 5; 6] 1 5) 1 200000
  = Py.getslice [1; 2; 3; 4; 5; 6] (1 + 1) (Z.min 5 (1 + 200000)).
Proof.
  apply (getslice_of_getslice [1; 2; 3; 4; 5; 6] 1 5 1 200000); lia.
Defined.

(** X6 on the last two of five samples. *)
Lemma getslice_negative_start_witness :
  Py.getslice [1; 2; 3; 4; 5] (- 2) 5 = [4; 5]
  /\ Z.of_nat (length (Py.getslice [1; 2; 3; 4; 5] (- 2) 5)) = 2.
Proof.
  apply (getslice_negative_start [1; 2; 3; 4; 5] 2); simpl; lia.
Defined.

(** X7 on a link that dangles: the glob returns its pathname. *)
Lemma first_match_is_existing_path_witness :
  match Py.getitem
          (glob toy_glob_magic {[ "tone.wav" := DanglingLink ]} "tone.wav") 0 with
  | Ok first =>
      first = "tone.wav"
      /\ is_Some (entry_at {[ "tone.wav" := DanglingLink ]} "tone.wav")
  | Raise e =>
      e = IndexError
      /\ entry_at {[ "tone.wav" := DanglingLink ]} "tone.wav" = None
  end.
Proof.
  apply (first_match_is_existing_path toy_glob_magic
           {[ "tone.wav" := DanglingLink ]} "tone.wav").
  reflexivity.
Defined.

(** X10 on five samples, zoomed to the window 1 to 3. *)
Lemma zoom_is_view_of_slice_witness :
  let st := mkState {[ 1%positive := [10; 20; 30; 40; 50] ]}
                    {| base := 1; offset := 0; size := 5 |} 41000 None in
  exists v : ndarray,
    snd (zoom 1 3 st) = Ok v
    /\ base v = base (y st)
    /\ slice (stored st) 1 3
       = Ok {| samples := contents (heap st) v; sample_rate := sr st |}.
Proof.
  intros st. apply (zoom_is_view_of_slice Z st 1 3).
  vm_compute. repeat constructor.
Defined.
